(** * Artifact loading utilities of ZenML ([zenml/utils/artifact_utils.py])

    A shallow embedding of the module's functions:
    - Python exceptions are the constructors of [exn]; a computation of
      type [py A] returns either a raised exception or a value, together
      with the trace of observable events it produced (log records and
      the calls into external collaborators that are observable);
    - the collaborators that live outside this module ([source_utils.load],
      the materializer classes, the ZenML client and zen store,
      [StackComponent.from_model], [torch]) are section variables, so
      every theorem holds for every behaviour of them;
    - the local filesystem seen by [fileio] and [tempfile] is a [gmap]
      from paths to files. *)

From stdpp Require Import base gmap strings list.
From Stdlib Require Import String Ascii ZArith.
From Stdlib Require Import Strings.Byte.

Open Scope string_scope.

(** ** Python values and exceptions *)

(** The exceptions raised or caught in [artifact_utils.py].  The payload
    is the message [str(e)]. *)
Inductive exn :=
| FileNotFoundError (msg : string)
| NotADirectoryError (msg : string)
| IsADirectoryError (msg : string)
| ModuleNotFoundError (msg : string)
| ImportError (msg : string)
| AttributeError (msg : string)
| KeyError (msg : string)
| IndexError (msg : string)
| TypeError (msg : string)
| DoesNotExistException (msg : string)
| NotImplementedError (msg : string)
| OtherException (msg : string).

(** [str(e)]; for a [KeyError] it is the [repr] of the key, which for a
    key without quotes is the key between single quotes. *)
Definition exn_str (e : exn) : string :=
  match e with
  | KeyError m => "'" ++ m ++ "'"
  | FileNotFoundError m | NotADirectoryError m | IsADirectoryError m
  | ModuleNotFoundError m | ImportError m
  | AttributeError m | IndexError m | TypeError m
  | DoesNotExistException m | NotImplementedError m | OtherException m => m
  end.

(** [isinstance(e, ImportError)]: [ModuleNotFoundError] is a subclass of
    [ImportError]. *)
Definition is_import_error (e : exn) : bool :=
  match e with
  | ImportError _ | ModuleNotFoundError _ => true
  | _ => false
  end.

(** [isinstance(e, (ModuleNotFoundError, AttributeError))] *)
Definition is_module_or_attribute_error (e : exn) : bool :=
  match e with
  | ModuleNotFoundError _ | AttributeError _ => true
  | _ => false
  end.

(** What [f.read()] returns: [bytes] in mode ["rb"], [str] in mode ["r"]. *)
Inductive pyval :=
| PBytes (b : list byte)
| PStr (s : string).

(** ** Observable events *)

(** Log records of [logger] and the calls into collaborators that the
    module makes (looking up a source, opening a file of an artifact
    store).  Debug records are left out: they carry no information the
    properties below use. *)
Inductive event :=
| LogWarning (msg : string)
| LogError (msg : string)
| LogException (msg : string)
| SourceLoad (source : string)
| StoreOpen (uri : string) (mode : string).

(** ** The Python computation monad: trace of events and a result *)

Definition py (A : Type) : Type := list event * (exn + A).

Global Instance py_ret : MRet py := fun A a => ([], inr a).
Global Instance py_bind : MBind py := fun A B f m =>
  match m with
  | (l, inl e) => (l, inl e)
  | (l, inr a) => let '(l2, r) := f a in ((l ++ l2)%list, r)
  end.

Definition raise {A} (e : exn) : py A := ([], inl e).
Definition pass : py unit := mret tt.
Definition emit (ev : event) : py unit := ([ev], inr tt).
Definition lift {A} (r : exn + A) : py A := ([], r).

(** [try: m except e: h e]; the handler decides whether to re-raise. *)
Definition try_except {A} (m : py A) (h : exn -> py A) : py A :=
  match m with
  | (l, inl e) => let '(l2, r) := h e in ((l ++ l2)%list, r)
  | (l, inr a) => (l, inr a)
  end.

(** ** String helpers *)

(** [str(n)] for a Python [int]. *)
Fixpoint digits_of_N (fuel : nat) (n : N) (acc : string) : string :=
  match fuel with
  | O => acc
  | S f =>
      let acc' := String (ascii_of_N (48 + N.modulo n 10)) acc in
      if (n <? 10)%N then acc' else digits_of_N f (N.div n 10) acc'
  end.

Definition str_of_Z (z : Z) : string :=
  let s := digits_of_N (S (N.size_nat (Z.abs_N z))) (Z.abs_N z) "" in
  if (z <? 0)%Z then "-" ++ s else s.

Definition ends_with_slash (s : string) : bool :=
  match String.get (String.length s - 1) s with
  | Some "/"%char => true
  | _ => false
  end.

(** [os.path.join(a, b)] (posixpath) for two components. *)
Definition os_path_join (a b : string) : string :=
  match String.get 0 b with
  | Some "/"%char => b
  | _ =>
      if String.eqb a "" then b
      else if ends_with_slash a then a ++ b
      else a ++ "/" ++ b
  end.

(** ** Base64 ([base64.b64encode]) *)

Definition b64_alphabet : string :=
  "ABCDEFGHIJKLMNOPQRSTUVWXYZabcdefghijklmnopqrstuvwxyz0123456789+/".

Definition b64_char (n : N) : byte :=
  match String.get (N.to_nat n) b64_alphabet with
  | Some c => byte_of_ascii c
  | None => x3d
  end.

Definition b64_pad : byte := x3d. (* "=" *)

Fixpoint b64encode (bs : list byte) : list byte :=
  match bs with
  | a :: b :: c :: rest =>
      let n := (Byte.to_N a * 65536 + Byte.to_N b * 256 + Byte.to_N c)%N in
      b64_char (N.shiftr n 18) :: b64_char (N.land (N.shiftr n 12) 63)
        :: b64_char (N.land (N.shiftr n 6) 63) :: b64_char (N.land n 63)
        :: b64encode rest
  | [a; b] =>
      let n := (Byte.to_N a * 65536 + Byte.to_N b * 256)%N in
      [b64_char (N.shiftr n 18); b64_char (N.land (N.shiftr n 12) 63);
       b64_char (N.land (N.shiftr n 6) 63); b64_pad]
  | [a] =>
      let n := (Byte.to_N a * 65536)%N in
      [b64_char (N.shiftr n 18); b64_char (N.land (N.shiftr n 12) 63);
       b64_pad; b64_pad]
  | [] => []
  end.

Definition bytes_of_string (s : string) : list byte :=
  map byte_of_ascii (list_ascii_of_string s).

(** ** Data model *)

(** [zenml.enums.VisualizationType] *)
Inductive VisualizationType := HTML | IMAGE | CSV | MARKDOWN.

Definition is_image (t : VisualizationType) : bool :=
  match t with IMAGE => true | _ => false end.

(** [zenml.models.visualization_models.VisualizationModel] *)
Record VisualizationModel := {
  vis_type : VisualizationType;
  vis_uri : string
}.

(** [LoadedVisualizationModel] *)
Record LoadedVisualizationModel := {
  lv_type : VisualizationType;
  lv_value : pyval
}.

(** The fields of [ArtifactResponseModel] that the module reads.  Source
    references ([materializer], [data_type]) are their import-path strings,
    as [_load_artifact] accepts them ([Union["Source", str]]).  A missing
    list of visualizations ([None]) behaves as the empty list everywhere
    in the module ([not artifact.visualizations]). *)
Record ArtifactResponseModel := {
  art_id : string;
  art_uri : string;
  art_materializer : string;
  art_data_type : string;
  art_artifact_store_id : option string;
  art_visualizations : list VisualizationModel
}.

(** A stack component model, as returned by [get_stack_component]. *)
Record ComponentModel := {
  cm_id : string;
  cm_name : string
}.

(** [BaseArtifactStore]: its [name] and [open(uri, mode)] followed by
    [read()], which either raise or return the contents. *)
Record BaseArtifactStore := {
  store_name : string;
  store_open : string -> string -> exn + pyval
}.

(** [BaseZenStore]: only [get_stack_component] is used. *)
Record BaseZenStore := {
  zs_get_stack_component : string -> exn + ComponentModel
}.

(** A file of the local filesystem: a YAML mapping of strings (what
    [write_yaml] writes and [read_yaml] parses back), or other content. *)
Inductive file :=
| YamlFile (d : gmap string string)
| DataFile (b : list byte).

(** ** Constants *)

Definition METADATA_DATATYPE : string := "datatype".
Definition METADATA_MATERIALIZER : string := "materializer".

(** Modelled from the spec: [zenml.constants] is not part of the sources;
    the spec describes [MODEL_METADATA_YAML_FILE_NAME] as a fixed,
    well-known file name inside a model artifact's directory.  The value
    is the one ZenML uses. *)
Definition MODEL_METADATA_YAML_FILE_NAME : string := "model_metadata.yaml".

Definition docs_link : string :=
  "https://docs.zenml.io/component-gallery/artifact-stores/custom#enabling-artifact-visualizations-with-custom-artifact-stores".

(** ** Local file access ([fileio.open], [read_yaml], [write_yaml]) *)

(** The directory parts of a path: the prefix before each ["/"]. *)
Fixpoint dir_prefixes (s : string) : list string :=
  match s with
  | EmptyString => []
  | String c s' =>
      ((if Ascii.eqb c "/"%char then [""] else [])
         ++ map (String c) (dir_prefixes s'))%list
  end.

(** Whether [path] is a directory: some file lies below it. *)
Definition is_directory (fs : gmap string file) (path : string) : bool :=
  existsb (fun kv => String.prefix (path ++ "/") kv.1) (map_to_list fs).

(** What [open(path, "r")] raises (through the local [fileio.open]) when no
    file is at [path]: [ENOTDIR] when a directory part of the path is a
    regular file, [EISDIR] when the path is a directory, [ENOENT]
    otherwise. *)
Definition open_error (fs : gmap string file) (path : string) : exn :=
  if existsb (fun q => match fs !! q with Some _ => true | None => false end)
       (dir_prefixes path)
  then NotADirectoryError ("[Errno 20] Not a directory: '" ++ path ++ "'")
  else if is_directory fs path
  then IsADirectoryError ("[Errno 21] Is a directory: '" ++ path ++ "'")
  else FileNotFoundError
         ("[Errno 2] No such file or directory: '" ++ path ++ "'").

(** [with fileio.open(path, "r") as f: read_yaml(f.name)] *)
Definition read_yaml_file (fs : gmap string file) (path : string)
  : py (gmap string string) :=
  match fs !! path with
  | None => raise (open_error fs path)
  | Some (YamlFile d) => mret d
  | Some (DataFile _) =>
      raise (OtherException ("could not parse YAML file '" ++ path ++ "'"))
  end.

(** [metadata[key]] *)
Definition dict_getitem (d : gmap string string) (key : string) : py string :=
  match d !! key with
  | Some v => mret v
  | None => raise (KeyError key)
  end.

(** ** [save_model_metadata] *)

(** [tempfile.NamedTemporaryFile(mode="w", suffix=".yaml", delete=False)]
    picks a fresh name in the temporary directory; that choice is the
    argument [tmp_name].  Opening it creates the (empty) file, then
    [write_yaml(f.name, metadata)] writes the mapping into it. *)
Definition save_model_metadata (tmp_name : string) (fs : gmap string file)
    (model_artifact : ArtifactResponseModel) : gmap string file * string :=
  let metadata : gmap string string :=
    <[METADATA_MATERIALIZER := art_materializer model_artifact]>
      (<[METADATA_DATATYPE := art_data_type model_artifact]> ∅) in
  let fs1 := <[tmp_name := DataFile []]> fs in
  let fs2 := <[tmp_name := YamlFile metadata]> fs1 in
  (fs2, tmp_name).

(** Placing a file under another path, e.g. putting the file returned by
    [save_model_metadata] into a model artifact's directory under
    [MODEL_METADATA_YAML_FILE_NAME]; this step is not part of the module. *)
Definition copy_file (src dst : string) (fs : gmap string file)
  : gmap string file :=
  match fs !! src with
  | Some f => <[dst := f]> fs
  | None => fs
  end.

Section ArtifactUtils.

(** Python class objects, materializer instances and loaded values. *)
Context {cls mobj obj : Type}.

(** [source_utils.load(source)] *)
Variable source_load : string -> exn + cls.
(** [materializer_class(uri)] *)
Variable materializer_init : cls -> string -> exn + mobj.
(** [materializer_object.load(artifact_class)]; it reads the artifact
    from the filesystem it is given. *)
Variable materializer_load : mobj -> cls -> gmap string file -> exn + obj.
(** [Client().get_stack_component(component_type=ARTIFACT_STORE,
    name_id_or_prefix=...)] *)
Variable client_get_stack_component : string -> exn + ComponentModel.
(** [Client().zen_store] *)
Variable client_zen_store : BaseZenStore.
(** [StackComponent.from_model(model)] *)
Variable from_model : ComponentModel -> exn + BaseArtifactStore.
(** Whether [import torch.nn] succeeds in this environment. *)
Variable torch_importable : bool.
(** [isinstance(model, nn.Module)] and the effect of [model.eval()] on the
    object (it returns the same object, switched to evaluation mode). *)
Variable is_nn_module : obj -> bool.
Variable nn_eval : obj -> obj.

(** [source_utils.load(source)], recording the lookup. *)
Definition source_utils_load (source : string) : py cls :=
  emit (SourceLoad source);; lift (source_load source).

Definition materializer_error_msg (materializer : string) : string :=
  "ZenML cannot locate and import the materializer module '" ++ materializer
  ++ "' which was used to write this artifact.".

Definition data_type_error_msg (data_type : string) : string :=
  "ZenML cannot locate and import the data type of this artifact '"
  ++ data_type ++ "'.".

(** [_load_artifact(materializer, data_type, uri)] *)
Definition _load_artifact (fs : gmap string file)
    (materializer data_type uri : string) : py obj :=
  materializer_class ← try_except (source_utils_load materializer)
    (fun e => if is_module_or_attribute_error e
              then emit (LogError (materializer_error_msg materializer));;
                   raise (ModuleNotFoundError (exn_str e))
              else raise e);
  artifact_class ← try_except (source_utils_load data_type)
    (fun e => if is_module_or_attribute_error e
              then emit (LogError (data_type_error_msg data_type));;
                   raise (ModuleNotFoundError (exn_str e))
              else raise e);
  materializer_object ← lift (materializer_init materializer_class uri);
  lift (materializer_load materializer_object artifact_class fs).

(** The body of the [try] that switches a torch model to eval mode. *)
Definition switch_to_eval_mode (model : obj) : py obj :=
  try_except
    (if torch_importable
     then mret (if is_nn_module model then nn_eval model else model)
     else raise (ModuleNotFoundError "No module named 'torch'"))
    (fun e => if is_import_error e then mret model else raise e).

(** [load_model_from_metadata(model_uri)] *)
Definition load_model_from_metadata (fs : gmap string file)
    (model_uri : string) : py obj :=
  metadata ← read_yaml_file fs
    (os_path_join model_uri MODEL_METADATA_YAML_FILE_NAME);
  data_type ← dict_getitem metadata METADATA_DATATYPE;
  materializer ← dict_getitem metadata METADATA_MATERIALIZER;
  model ← _load_artifact fs materializer data_type model_uri;
  switch_to_eval_mode model.

Definition restore_store_warning (artifact : ArtifactResponseModel) : string :=
  "Unable to restore artifact store while trying to load artifact `"
  ++ art_id artifact ++ "`. If this artifact is stored in a remote artifact "
  ++ "store, this might lead to issues when trying to load the artifact.".

(** [load_artifact(artifact)] *)
Definition load_artifact (fs : gmap string file)
    (artifact : ArtifactResponseModel) : py obj :=
  artifact_store_loaded ← (
    match art_artifact_store_id artifact with
    | Some store_id =>
        try_except
          (artifact_store_model ← lift (client_get_stack_component store_id);
           _ ← lift (from_model artifact_store_model);
           mret true)
          (fun e => match e with KeyError _ => mret false | _ => raise e end)
    | None => mret false
    end : py bool);
  (if (artifact_store_loaded : bool) then pass
   else emit (LogWarning (restore_store_warning artifact)));;
  _load_artifact fs (art_materializer artifact) (art_data_type artifact)
    (art_uri artifact).

Definition store_deleted_msg (artifact : ArtifactResponseModel) : string :=
  "Artifact '" ++ art_id artifact ++ "' cannot be loaded because the "
  ++ "underlying artifact store was deleted.".

Definition store_unavailable_msg (artifact : ArtifactResponseModel)
    (artifact_store_model : ComponentModel) : string :=
  "Artifact '" ++ art_id artifact ++ "' could not be loaded because the "
  ++ "underlying artifact store '" ++ cm_name artifact_store_model
  ++ "' could not be instantiated. This is likely because the artifact "
  ++ "store's dependencies are not installed. For more information, see "
  ++ docs_link ++ ".".

(** [_load_artifact_store_of_artifact(artifact, zen_store)] *)
Definition _load_artifact_store_of_artifact
    (artifact : ArtifactResponseModel) (zen_store : option BaseZenStore)
    : py BaseArtifactStore :=
  match art_artifact_store_id artifact with
  | None => raise (DoesNotExistException (store_deleted_msg artifact))
  | Some store_id =>
      let zen_store := match zen_store with
                       | Some zs => zs
                       | None => client_zen_store
                       end in
      artifact_store_model ←
        lift (zs_get_stack_component zen_store store_id);
      try_except (lift (from_model artifact_store_model))
        (fun e =>
           if is_import_error e
           then raise (NotImplementedError
                  (store_unavailable_msg artifact artifact_store_model))
           else raise e)
  end.

Definition file_missing_msg (uri : string) (artifact_store : BaseArtifactStore)
  : string :=
  "File '" ++ uri ++ "' does not exist in artifact store '"
  ++ store_name artifact_store ++ "'.".

Definition file_unreadable_msg (uri : string)
    (artifact_store : BaseArtifactStore) : string :=
  "File '" ++ uri ++ "' could not be loaded because the underlying artifact "
  ++ "store '" ++ store_name artifact_store ++ "' could not open the file. "
  ++ "This is likely because the authentication credentials are not "
  ++ "configured in the artifact store itself. For more information, see "
  ++ docs_link ++ ".".

(** [_load_file_from_artifact_store(uri, artifact_store, mode)]:
    [with artifact_store.open(uri, mode) as f: return f.read()], with
    [except FileNotFoundError] and then [except Exception]. *)
Definition _load_file_from_artifact_store (uri : string)
    (artifact_store : BaseArtifactStore) (mode : string) : py pyval :=
  try_except
    (emit (StoreOpen uri mode);; lift (store_open artifact_store uri mode))
    (fun e =>
       match e with
       | FileNotFoundError _ =>
           raise (DoesNotExistException (file_missing_msg uri artifact_store))
       | _ =>
           emit (LogException (exn_str e));;
           raise (NotImplementedError (file_unreadable_msg uri artifact_store))
       end).

(** [bytes(value)] *)
Definition py_bytes (v : pyval) : py (list byte) :=
  match v with
  | PBytes b => mret b
  | PStr _ => raise (TypeError "string argument without an encoding")
  end.

Definition no_visualizations_msg (artifact : ArtifactResponseModel) : string :=
  "Artifact '" ++ art_id artifact ++ "' has no visualizations.".

Definition index_out_of_range_msg (artifact : ArtifactResponseModel)
    (index : Z) : string :=
  "Artifact '" ++ art_id artifact ++ "' only has "
  ++ str_of_Z (Z.of_nat (List.length (art_visualizations artifact)))
  ++ " visualizations, but index " ++ str_of_Z index ++ " was requested.".

(** The body of [load_artifact_visualization] once [visualization] is
    selected: load the store, read the file, encode images if asked. *)
Definition load_visualization_entry (artifact : ArtifactResponseModel)
    (visualization : VisualizationModel) (zen_store : option BaseZenStore)
    (encode_image : bool) : py LoadedVisualizationModel :=
  artifact_store ← _load_artifact_store_of_artifact artifact zen_store;
  let mode := if is_image (vis_type visualization) then "rb" else "r" in
  value ← _load_file_from_artifact_store (vis_uri visualization)
    artifact_store mode;
  value ← (if is_image (vis_type visualization) && encode_image
           then b ← py_bytes value; mret (PBytes (b64encode b))
           else mret value : py pyval);
  mret {| lv_type := vis_type visualization; lv_value := value |}.

(** [load_artifact_visualization(artifact, index, zen_store, encode_image)] *)
Definition load_artifact_visualization (artifact : ArtifactResponseModel)
    (index : Z) (zen_store : option BaseZenStore) (encode_image : bool)
    : py LoadedVisualizationModel :=
  match art_visualizations artifact with
  | [] => raise (DoesNotExistException (no_visualizations_msg artifact))
  | _ =>
      if (index <? 0)%Z
         || (Z.of_nat (List.length (art_visualizations artifact)) <=? index)%Z
      then raise (DoesNotExistException
                    (index_out_of_range_msg artifact index))
      else
        match art_visualizations artifact !! Z.to_nat index with
        | None => raise (IndexError "list index out of range")
        | Some visualization =>
            load_visualization_entry artifact visualization zen_store
              encode_image
        end
  end.

End ArtifactUtils.

(** ** A concrete environment

    One instance of the collaborators, used to run the functions on
    concrete records: a registry of importable sources, a materializer
    that records what it was asked to load, a client knowing one local
    and one S3 artifact store (the latter's dependencies missing), and
    [torch] installed. *)
Module Demo.

Record Loaded := {
  ld_materializer : string;
  ld_data_type : string;
  ld_uri : string;
  ld_eval_mode : bool
}.

Definition importable : list string :=
  ["zenml.materializers.built_in_materializer.BuiltInMaterializer";
   "zenml.integrations.pytorch.materializers.pytorch_module_materializer.PyTorchModuleMaterializer";
   "builtins.dict"; "torch.nn.modules.module.Module"].

(** The top-level package of an import path. *)
Definition top_module (s : string) : string :=
  match String.index 0 "." s with
  | Some n => String.substring 0 n s
  | None => s
  end.

Definition source_load (s : string) : exn + string :=
  if existsb (String.eqb s) importable then inr s
  else inl (ModuleNotFoundError ("No module named '" ++ top_module s ++ "'")).

Definition materializer_init (c uri : string) : exn + (string * string) :=
  inr (c, uri).

Definition materializer_load (m : string * string) (data_type : string)
    (_ : gmap string file) : exn + Loaded :=
  inr {| ld_materializer := m.1; ld_data_type := data_type; ld_uri := m.2;
         ld_eval_mode := false |}.

Definition local_cm : ComponentModel :=
  {| cm_id := "a1b2"; cm_name := "default" |}.
Definition s3_cm : ComponentModel :=
  {| cm_id := "c3d4"; cm_name := "s3_store" |}.

Definition client_get_stack_component (id : string) : exn + ComponentModel :=
  if String.eqb id "a1b2" then inr local_cm
  else if String.eqb id "c3d4" then inr s3_cm
  else inl (KeyError ("No component with ID '" ++ id ++ "' found."))%string.

Definition png_bytes : list byte := [x89; x50; x4e; x47].

Definition local_open (uri mode : string) : exn + pyval :=
  if String.eqb uri "/store/viz/plot.png" then
    (if String.eqb mode "rb" then inr (PBytes png_bytes)
     else inl (OtherException "'utf-8' codec can't decode byte 0x89"))
  else if String.eqb uri "/store/viz/table.csv" then
    (if String.eqb mode "rb" then inr (PBytes (bytes_of_string "a,b"))
     else inr (PStr "a,b"))
  else inl (FileNotFoundError uri).

Definition local_store : BaseArtifactStore :=
  {| store_name := "default"; store_open := local_open |}.

Definition from_model (cm : ComponentModel) : exn + BaseArtifactStore :=
  if String.eqb (cm_name cm) "s3_store"
  then inl (ImportError "Couldn't import flavor s3: No module named 's3fs'")
  else inr local_store.

Definition zen_store : BaseZenStore :=
  {| zs_get_stack_component := client_get_stack_component |}.

Definition is_nn_module (l : Loaded) : bool :=
  String.eqb (ld_data_type l) "torch.nn.modules.module.Module".

Definition nn_eval (l : Loaded) : Loaded :=
  {| ld_materializer := ld_materializer l; ld_data_type := ld_data_type l;
     ld_uri := ld_uri l; ld_eval_mode := true |}.

Definition plot : VisualizationModel :=
  {| vis_type := IMAGE; vis_uri := "/store/viz/plot.png" |}.
Definition table : VisualizationModel :=
  {| vis_type := CSV; vis_uri := "/store/viz/table.csv" |}.

Definition model_artifact : ArtifactResponseModel :=
  {| art_id := "7f00"; art_uri := "/store/trainer/output/12";
     art_materializer :=
       "zenml.integrations.pytorch.materializers.pytorch_module_materializer.PyTorchModuleMaterializer";
     art_data_type := "torch.nn.modules.module.Module";
     art_artifact_store_id := Some "a1b2";
     art_visualizations := [plot; table] |}.

(** A record whose store is no longer known to the client ([KeyError]). *)
Definition unknown_store_artifact : ArtifactResponseModel :=
  {| art_id := "8a11"; art_uri := "/store/loader/output/3";
     art_materializer :=
       "zenml.materializers.built_in_materializer.BuiltInMaterializer";
     art_data_type := "builtins.dict";
     art_artifact_store_id := Some "e5f6";
     art_visualizations := [] |}.

(** A record in the S3 store, whose dependencies are not installed. *)
Definition s3_artifact : ArtifactResponseModel :=
  {| art_id := "9b22"; art_uri := "s3://bucket/loader/output/4";
     art_materializer :=
       "zenml.materializers.built_in_materializer.BuiltInMaterializer";
     art_data_type := "builtins.dict";
     art_artifact_store_id := Some "c3d4";
     art_visualizations := [] |}.

Definition missing_materializer : string :=
  "my_pkg.materializers.MyMaterializer".

(** Records whose materializer cannot be imported. *)
Definition local_unresolvable_artifact : ArtifactResponseModel :=
  {| art_id := "ac33"; art_uri := "/store/trainer/output/5";
     art_materializer := missing_materializer;
     art_data_type := "builtins.dict";
     art_artifact_store_id := Some "a1b2";
     art_visualizations := [] |}.

Definition s3_unresolvable_artifact : ArtifactResponseModel :=
  {| art_id := "bd44"; art_uri := "s3://bucket/trainer/output/6";
     art_materializer := missing_materializer;
     art_data_type := "builtins.dict";
     art_artifact_store_id := Some "c3d4";
     art_visualizations := [] |}.

(** Records whose artifact store was deleted. *)
Definition orphan_artifact : ArtifactResponseModel :=
  {| art_id := "ce55"; art_uri := "/old/evaluator/output/7";
     art_materializer :=
       "zenml.materializers.built_in_materializer.BuiltInMaterializer";
     art_data_type := "builtins.dict";
     art_artifact_store_id := None;
     art_visualizations := [plot; table] |}.

Definition orphan_artifact_no_visualizations : ArtifactResponseModel :=
  {| art_id := "df66"; art_uri := "/old/evaluator/output/8";
     art_materializer :=
       "zenml.materializers.built_in_materializer.BuiltInMaterializer";
     art_data_type := "builtins.dict";
     art_artifact_store_id := None;
     art_visualizations := [] |}.

Definition tmp_name : string := "/tmp/tmpk3x9q2.yaml".

(** A model directory whose metadata file holds one key more than the two
    the module reads. *)
Definition model_metadata : gmap string string :=
  <["datatype" := "torch.nn.modules.module.Module"]>
    (<["materializer" :=
        "zenml.integrations.pytorch.materializers.pytorch_module_materializer.PyTorchModuleMaterializer"]>
       (<["zenml_version" := "0.40.0"]> ∅)).

Definition model_dir_fs : gmap string file :=
  {[ "/store/trainer/output/12/model_metadata.yaml" := YamlFile model_metadata ]}.

(** Instances of the module's functions in this environment. *)
Definition load_artifact' :=
  load_artifact source_load materializer_init materializer_load
    client_get_stack_component from_model.
Definition load_model_from_metadata' :=
  load_model_from_metadata source_load materializer_init materializer_load
    true is_nn_module nn_eval.
Definition load_artifact_visualization' :=
  load_artifact_visualization zen_store from_model.

End Demo.

(** * Properties *)

(** ** Reading files of an artifact store and visualizations *)

Section VisualizationProofs.

Variable client_zen_store : BaseZenStore.
Variable from_model : ComponentModel -> exn + BaseArtifactStore.

Local Abbreviation load_vis :=
  (load_artifact_visualization client_zen_store from_model).
Local Abbreviation entry := (load_visualization_entry client_zen_store from_model).
Local Abbreviation store_of :=
  (_load_artifact_store_of_artifact client_zen_store from_model).

Lemma bind_ret_l {A B} (a : A) (f : A -> py B) : (mret a ≫= f) = f a.
Proof. unfold mbind, py_bind, mret, py_ret. by destruct (f a). Qed.

Lemma bind_prefix {A B} (l : list event) (a : A) (f : A -> py B) :
  ((l, inr a) ≫= f) = ((l ++ (f a).1)%list, (f a).2).
Proof. unfold mbind, py_bind. by destruct (f a). Qed.

Lemma bind_raise {A B} (l : list event) (e : exn) (f : A -> py B) :
  ((l, inl e) ≫= f) = (l, inl e).
Proof. reflexivity. Qed.

(** C6: a read through an artifact store opens the file once; a
    [FileNotFoundError] becomes a [DoesNotExistException] naming the URI,
    any other exception is logged and becomes a [NotImplementedError] with
    the credentials hint, so only these two exceptions leave the function. *)
Theorem load_file_from_artifact_store_errors (uri : string)
    (artifact_store : BaseArtifactStore) (mode : string) :
  _load_file_from_artifact_store uri artifact_store mode =
    match store_open artifact_store uri mode with
    | inr value => ([StoreOpen uri mode], inr value)
    | inl (FileNotFoundError _) =>
        ([StoreOpen uri mode],
         inl (DoesNotExistException (file_missing_msg uri artifact_store)))
    | inl e =>
        ([StoreOpen uri mode; LogException (exn_str e)],
         inl (NotImplementedError (file_unreadable_msg uri artifact_store)))
    end /\
  (forall e, (_load_file_from_artifact_store uri artifact_store mode).2 = inl e ->
     e = DoesNotExistException (file_missing_msg uri artifact_store) \/
     e = NotImplementedError (file_unreadable_msg uri artifact_store)).
Proof.
  unfold _load_file_from_artifact_store, try_except, emit, lift, raise.
  cbn. destruct (store_open artifact_store uri mode) as [[] | v];
    split; cbn; try reflexivity; intros e' He'; inversion He'; auto.
Qed.

(** Past the two checks, [load_artifact_visualization] continues with the
    selected visualization. *)
Lemma load_vis_in_range (artifact : ArtifactResponseModel) (index : Z)
    (zen_store : option BaseZenStore) (encode_image : bool)
    (visualization : VisualizationModel) :
  art_visualizations artifact !! Z.to_nat index = Some visualization ->
  (0 <= index)%Z ->
  load_vis artifact index zen_store encode_image =
    entry artifact visualization zen_store encode_image.
Proof.
  intros Hv Hpos. unfold load_artifact_visualization.
  pose proof (lookup_lt_Some _ _ _ Hv) as Hlt.
  destruct (art_visualizations artifact) as [|v0 vs] eqn:Hvis;
    [discriminate|].
  replace ((index <? 0)%Z || (Z.of_nat (List.length (v0 :: vs)) <=? index)%Z)
    with false by (symmetry; apply orb_false_iff; split;
                   [apply Z.ltb_ge | apply Z.leb_gt]; lia).
  by rewrite Hv.
Qed.

Lemma lookup_in_bounds (l : list VisualizationModel) (index : Z) :
  (0 <= index < Z.of_nat (List.length l))%Z ->
  exists v, l !! Z.to_nat index = Some v.
Proof.
  intros H. apply lookup_lt_is_Some_2. lia.
Qed.

(** C4: a record whose [artifact_store_id] is null fails, at every valid
    index, with the "store was deleted" [DoesNotExistException], before any
    store or file is touched. *)
Theorem load_artifact_visualization_store_deleted
    (artifact : ArtifactResponseModel) (index : Z)
    (zen_store : option BaseZenStore) (encode_image : bool)
    (Hnone : art_artifact_store_id artifact = None)
    (Hindex : (0 <= index < Z.of_nat (List.length (art_visualizations artifact)))%Z) :
  load_vis artifact index zen_store encode_image =
    ([], inl (DoesNotExistException (store_deleted_msg artifact))).
Proof.
  destruct (lookup_in_bounds _ _ Hindex) as [v Hv].
  rewrite (load_vis_in_range _ _ _ _ v Hv) by lia.
  unfold load_visualization_entry, _load_artifact_store_of_artifact.
  by rewrite Hnone.
Qed.

(** C5: an empty visualization list fails with "no visualizations"; for a
    non-empty list of N visualizations an index outside [0, N) fails with
    the message naming N, an index inside it (in particular N-1) passes
    both checks and goes on with that visualization. *)
Theorem load_artifact_visualization_bounds (artifact : ArtifactResponseModel)
    (index : Z) (zen_store : option BaseZenStore) (encode_image : bool) :
  (art_visualizations artifact = [] ->
   load_vis artifact index zen_store encode_image =
     ([], inl (DoesNotExistException (no_visualizations_msg artifact)))) /\
  (art_visualizations artifact <> [] ->
   (index < 0 \/ Z.of_nat (List.length (art_visualizations artifact)) <= index)%Z ->
   load_vis artifact index zen_store encode_image =
     ([], inl (DoesNotExistException (index_out_of_range_msg artifact index)))) /\
  (forall visualization,
   art_visualizations artifact !! Z.to_nat index = Some visualization ->
   (0 <= index)%Z ->
   load_vis artifact index zen_store encode_image =
     entry artifact visualization zen_store encode_image) /\
  (forall visualization,
   last (art_visualizations artifact) = Some visualization ->
   load_vis artifact
     (Z.of_nat (List.length (art_visualizations artifact)) - 1)
     zen_store encode_image =
     entry artifact visualization zen_store encode_image).
Proof.
  split; [|split; [|split]].
  - intros Hnil. unfold load_artifact_visualization. by rewrite Hnil.
  - intros Hne Hout. unfold load_artifact_visualization.
    destruct (art_visualizations artifact) as [|v0 vs] eqn:Hvis;
      [contradiction|].
    replace ((index <? 0)%Z
             || (Z.of_nat (List.length (v0 :: vs)) <=? index)%Z) with true
      by (symmetry; apply orb_true_iff; destruct Hout;
          [left; apply Z.ltb_lt | right; apply Z.leb_le]; lia).
    reflexivity.
  - intros v Hv Hpos. by apply load_vis_in_range.
  - intros v Hlast. rewrite last_lookup in Hlast.
    pose proof (lookup_lt_Some _ _ _ Hlast) as Hlt.
    apply load_vis_in_range; [|lia].
    rewrite <-Hlast. f_equal. lia.
Qed.

(** C7: once the store is loaded, the visualization's URI is opened in
    mode ["rb"] exactly when its type is [IMAGE] and in mode ["r"]
    otherwise; an image read as bytes is returned base64-encoded when
    [encode_image] is set and raw when it is not; for other types the flag
    does not change the outcome. *)
Theorem load_visualization_entry_mode_and_encoding
    (artifact : ArtifactResponseModel) (visualization : VisualizationModel)
    (zen_store : option BaseZenStore) (tr : list event)
    (artifact_store : BaseArtifactStore)
    (Hstore : store_of artifact zen_store = (tr, inr artifact_store)) :
  let uri := vis_uri visualization in
  let mode := if is_image (vis_type visualization) then "rb" else "r" in
  (forall encode_image, exists l r,
     entry artifact visualization zen_store encode_image =
       ((tr ++ StoreOpen uri mode :: l)%list, r)) /\
  (is_image (vis_type visualization) = false ->
   entry artifact visualization zen_store true =
     entry artifact visualization zen_store false) /\
  (is_image (vis_type visualization) = false ->
   forall encode_image value, store_open artifact_store uri "r" = inr value ->
   entry artifact visualization zen_store encode_image =
     ((tr ++ [StoreOpen uri "r"])%list,
      inr {| lv_type := vis_type visualization; lv_value := value |})) /\
  (vis_type visualization = IMAGE ->
   forall value, store_open artifact_store uri "rb" = inr value ->
   entry artifact visualization zen_store false =
     ((tr ++ [StoreOpen uri "rb"])%list,
      inr {| lv_type := IMAGE; lv_value := value |})) /\
  (vis_type visualization = IMAGE ->
   forall b, store_open artifact_store uri "rb" = inr (PBytes b) ->
   entry artifact visualization zen_store true =
     ((tr ++ [StoreOpen uri "rb"])%list,
      inr {| lv_type := IMAGE; lv_value := PBytes (b64encode b) |})).
Proof.
  intros uri mode.
  unfold load_visualization_entry. rewrite Hstore, bind_prefix.
  unfold _load_file_from_artifact_store, try_except, emit, lift.
  subst uri mode. cbn.
  split; [|split; [|split; [|split]]].
  - intros enc.
    destruct (store_open artifact_store (vis_uri visualization) _)
      as [e | v]; cbn.
    + destruct e; cbn; eexists _, _; rewrite <-?app_assoc; reflexivity.
    + destruct (is_image (vis_type visualization) && enc), v; cbn;
        eexists _, _; rewrite <-?app_assoc; reflexivity.
  - intros Himg. rewrite Himg. cbn.
    destruct (store_open artifact_store (vis_uri visualization) "r")
      as [[] | v]; reflexivity.
  - intros Himg enc v Hv. rewrite Himg, Hv. cbn.
    by rewrite ?app_nil_r.
  - intros Himg v Hv. rewrite Himg. cbn. rewrite Hv. cbn.
    by rewrite ?app_nil_r.
  - intros Himg b Hb. rewrite Himg. cbn. rewrite Hb. cbn.
    by rewrite ?app_nil_r.
Qed.

End VisualizationProofs.

(** ** Loading artifacts and models *)

Section ArtifactProofs.

Context {cls mobj obj : Type}.
Variable source_load : string -> exn + cls.
Variable materializer_init : cls -> string -> exn + mobj.
Variable materializer_load : mobj -> cls -> gmap string file -> exn + obj.
Variable client_get_stack_component : string -> exn + ComponentModel.
Variable client_zen_store : BaseZenStore.
Variable from_model : ComponentModel -> exn + BaseArtifactStore.
Variable torch_importable : bool.
Variable is_nn_module : obj -> bool.
Variable nn_eval : obj -> obj.

Local Abbreviation load_art :=
  (_load_artifact source_load materializer_init materializer_load).
Local Abbreviation load_art_rec :=
  (load_artifact source_load materializer_init materializer_load
     client_get_stack_component from_model).
Local Abbreviation load_model :=
  (load_model_from_metadata source_load materializer_init materializer_load
     torch_importable is_nn_module nn_eval).
Local Abbreviation load_vis :=
  (load_artifact_visualization client_zen_store from_model).

Lemma emit_then {A} (ev : event) (m : py A) :
  (emit ev;; m) = (ev :: m.1, m.2).
Proof. unfold emit. cbn. by destruct m. Qed.

Lemma pass_then {A} (m : py A) : (pass;; m) = m.
Proof. unfold pass. cbn. by destruct m. Qed.

(** The three ways [load_artifact] can go: the store lookup raised an
    exception that is not a [KeyError] (and nothing else happened), or it
    goes on to [_load_artifact], after a warning when no store was
    restored. *)
Lemma load_artifact_cases (fs : gmap string file)
    (artifact : ArtifactResponseModel) :
  (exists store_id e,
     art_artifact_store_id artifact = Some store_id /\
     (client_get_stack_component store_id = inl e \/
      exists cm, client_get_stack_component store_id = inr cm /\
                 from_model cm = inl e) /\
     match e with KeyError _ => False | _ => True end /\
     load_art_rec fs artifact = ([], inl e)) \/
  load_art_rec fs artifact =
    (LogWarning (restore_store_warning artifact)
       :: (load_art fs (art_materializer artifact) (art_data_type artifact)
             (art_uri artifact)).1,
     (load_art fs (art_materializer artifact) (art_data_type artifact)
        (art_uri artifact)).2) \/
  load_art_rec fs artifact =
    load_art fs (art_materializer artifact) (art_data_type artifact)
      (art_uri artifact).
Proof.
  unfold load_artifact.
  destruct (art_artifact_store_id artifact) as [store_id|] eqn:Hid.
  - unfold try_except, lift.
    destruct (client_get_stack_component store_id) as [e|cm] eqn:Hget.
    + destruct e; cbn -[_load_artifact emit pass]; rewrite ?emit_then;
        first [ right; left; reflexivity
              | left; do 2 eexists; split; [reflexivity|];
                split; [left; exact Hget|]; split; [exact I|reflexivity] ].
    + cbn -[_load_artifact emit pass].
      destruct (from_model cm) as [e|st] eqn:Hfm; cbn -[_load_artifact emit pass].
      * destruct e; cbn -[_load_artifact emit pass]; rewrite ?emit_then;
          first [ right; left; reflexivity
                | left; do 2 eexists; split; [reflexivity|];
                  split; [right; exists cm; split; [exact Hget|exact Hfm]|];
                  split; [exact I|reflexivity] ].
      * right; right. rewrite pass_then. by destruct (load_art _ _ _ _).
  - right; left. cbn -[_load_artifact emit pass]. rewrite emit_then.
    by destruct (load_art _ _ _ _).
Qed.

(** A materializer reference whose lookup raises [ModuleNotFoundError] or
    [AttributeError] stops [_load_artifact] right after that lookup. *)
Lemma load_art_materializer_fail (fs : gmap string file)
    (materializer data_type uri : string) (e : exn) :
  source_load materializer = inl e ->
  is_module_or_attribute_error e = true ->
  load_art fs materializer data_type uri =
    ([SourceLoad materializer; LogError (materializer_error_msg materializer)],
     inl (ModuleNotFoundError (exn_str e))).
Proof.
  intros Hmat He.
  unfold _load_artifact, source_utils_load, try_except, emit, lift.
  cbn. rewrite Hmat. cbn. by rewrite He.
Qed.

(** C2, as the code does it: when the record names a store and looking it
    up raises a [KeyError], [load_artifact] logs the warning and goes on
    with [_load_artifact]; any other exception of the store lookup (an
    [ImportError] of [StackComponent.from_model] for missing
    dependencies, say) leaves [load_artifact] unchanged, before any
    warning or source lookup. *)
Theorem load_artifact_store_failure (fs : gmap string file)
    (artifact : ArtifactResponseModel) (store_id : string) (e : exn)
    (Hid : art_artifact_store_id artifact = Some store_id)
    (Hfail : client_get_stack_component store_id = inl e \/
             exists cm, client_get_stack_component store_id = inr cm /\
                        from_model cm = inl e) :
  load_art_rec fs artifact =
    match e with
    | KeyError _ =>
        (LogWarning (restore_store_warning artifact)
           :: (load_art fs (art_materializer artifact) (art_data_type artifact)
                 (art_uri artifact)).1,
         (load_art fs (art_materializer artifact) (art_data_type artifact)
            (art_uri artifact)).2)
    | _ => ([], inl e)
    end.
Proof.
  unfold load_artifact. rewrite Hid. unfold try_except, lift.
  destruct Hfail as [Hget | [cm [Hget Hfm]]].
  - rewrite Hget.
    destruct e; cbn -[_load_artifact emit pass]; try reflexivity.
    rewrite emit_then. by destruct (load_art _ _ _ _).
  - rewrite Hget. cbn -[_load_artifact emit pass]. rewrite Hfm.
    destruct e; cbn -[_load_artifact emit pass]; try reflexivity.
    rewrite emit_then. by destruct (load_art _ _ _ _).
Qed.

(** C3, as the code does it: for a record whose materializer lookup raises
    [ModuleNotFoundError] or [AttributeError] [e], [_load_artifact] logs an
    error naming the reference and raises [ModuleNotFoundError] carrying
    [str(e)], without looking up the data type.  [load_artifact] then
    fails in one of three ways, according to its store resolution: a store
    lookup raising an exception other than [KeyError] makes it raise that
    exception before any reference is looked up; a null store id or a
    [KeyError] makes it log the store warning and then fail as
    [_load_artifact] does; a restored store makes it fail as
    [_load_artifact] does, with no warning. *)
Theorem load_artifact_materializer_unresolvable (fs : gmap string file)
    (artifact : ArtifactResponseModel) (e : exn)
    (Hmat : source_load (art_materializer artifact) = inl e)
    (He : is_module_or_attribute_error e = true) :
  load_art fs (art_materializer artifact) (art_data_type artifact)
    (art_uri artifact) =
    ([SourceLoad (art_materializer artifact);
      LogError (materializer_error_msg (art_materializer artifact))],
     inl (ModuleNotFoundError (exn_str e))) /\
  ((exists store_id e0,
      art_artifact_store_id artifact = Some store_id /\
      (client_get_stack_component store_id = inl e0 \/
       exists cm, client_get_stack_component store_id = inr cm /\
                  from_model cm = inl e0) /\
      match e0 with KeyError _ => False | _ => True end /\
      load_art_rec fs artifact = ([], inl e0)) \/
   ((art_artifact_store_id artifact = None \/
     exists store_id m,
       art_artifact_store_id artifact = Some store_id /\
       (client_get_stack_component store_id = inl (KeyError m) \/
        exists cm, client_get_stack_component store_id = inr cm /\
                   from_model cm = inl (KeyError m))) /\
    load_art_rec fs artifact =
      ([LogWarning (restore_store_warning artifact);
        SourceLoad (art_materializer artifact);
        LogError (materializer_error_msg (art_materializer artifact))],
       inl (ModuleNotFoundError (exn_str e)))) \/
   ((exists store_id cm st,
       art_artifact_store_id artifact = Some store_id /\
       client_get_stack_component store_id = inr cm /\
       from_model cm = inr st) /\
    load_art_rec fs artifact =
      ([SourceLoad (art_materializer artifact);
        LogError (materializer_error_msg (art_materializer artifact))],
       inl (ModuleNotFoundError (exn_str e))))).
Proof.
  pose proof (load_art_materializer_fail fs (art_materializer artifact)
                (art_data_type artifact) (art_uri artifact) e Hmat He) as HL.
  split; [exact HL|].
  unfold load_artifact.
  destruct (art_artifact_store_id artifact) as [sid|] eqn:Hid.
  - unfold try_except, lift.
    destruct (client_get_stack_component sid) as [e0|cm] eqn:Hget.
    + destruct e0; cbn -[_load_artifact emit pass]; rewrite ?emit_then, ?HL;
        first [ right; left; split;
                [right; do 2 eexists; split; [reflexivity|]; left; exact Hget
                |reflexivity]
              | left; do 2 eexists; split; [reflexivity|];
                split; [left; exact Hget|]; split; [exact I|reflexivity] ].
    + cbn -[_load_artifact emit pass].
      destruct (from_model cm) as [e0|st] eqn:Hfm;
        cbn -[_load_artifact emit pass].
      * destruct e0; cbn -[_load_artifact emit pass]; rewrite ?emit_then, ?HL;
          first [ right; left; split;
                  [right; do 2 eexists; split; [reflexivity|];
                   right; exists cm; split; [exact Hget|exact Hfm]
                  |reflexivity]
                | left; do 2 eexists; split; [reflexivity|];
                  split; [right; exists cm; split; [exact Hget|exact Hfm]|];
                  split; [exact I|reflexivity] ].
      * right; right. rewrite pass_then, HL. split; [|reflexivity].
        by exists sid, cm, st.
  - right; left. cbn -[_load_artifact emit pass]. rewrite emit_then, HL.
    split; [by left|reflexivity].
Qed.

(** C9: the switch to evaluation mode never raises and never logs: the
    value [_load_artifact] returns is switched by [nn_eval] when [torch]
    imports and the value is an [nn.Module], and returned as it is
    otherwise. *)
Theorem load_model_from_metadata_eval_mode (fs : gmap string file)
    (model_uri : string) :
  load_model fs model_uri =
    (metadata ← read_yaml_file fs
       (os_path_join model_uri MODEL_METADATA_YAML_FILE_NAME);
     data_type ← dict_getitem metadata METADATA_DATATYPE;
     materializer ← dict_getitem metadata METADATA_MATERIALIZER;
     model ← load_art fs materializer data_type model_uri;
     mret (if torch_importable && is_nn_module model then nn_eval model
           else model)).
Proof.
  unfold load_model_from_metadata, switch_to_eval_mode.
  destruct torch_importable; reflexivity.
Qed.

(** C10, as the code does it: for a record whose [artifact_store_id] is
    null, [load_artifact] only logs the warning and goes on with
    [_load_artifact], while [load_artifact_visualization] fails with "store
    was deleted" at every index of a non-empty visualization list (with no
    visualizations it fails earlier with "no visualizations"). *)
Theorem store_id_null_asymmetry (fs : gmap string file)
    (artifact : ArtifactResponseModel)
    (Hnone : art_artifact_store_id artifact = None) :
  load_art_rec fs artifact =
    (LogWarning (restore_store_warning artifact)
       :: (load_art fs (art_materializer artifact) (art_data_type artifact)
             (art_uri artifact)).1,
     (load_art fs (art_materializer artifact) (art_data_type artifact)
        (art_uri artifact)).2) /\
  (forall index zen_store encode_image,
     (0 <= index < Z.of_nat (List.length (art_visualizations artifact)))%Z ->
     load_vis artifact index zen_store encode_image =
       ([], inl (DoesNotExistException (store_deleted_msg artifact)))) /\
  (art_visualizations artifact = [] ->
   forall index zen_store encode_image,
     load_vis artifact index zen_store encode_image =
       ([], inl (DoesNotExistException (no_visualizations_msg artifact)))).
Proof.
  split; [|split].
  - unfold load_artifact. rewrite Hnone. cbn -[_load_artifact emit pass].
    rewrite emit_then. by destruct (load_art _ _ _ _).
  - intros index zs enc Hindex.
    destruct (lookup_in_bounds _ _ Hindex) as [v Hv].
    rewrite (load_vis_in_range client_zen_store from_model _ _ _ _ v Hv)
      by lia.
    unfold load_visualization_entry, _load_artifact_store_of_artifact.
    by rewrite Hnone.
  - intros Hnil index zs enc. unfold load_artifact_visualization.
    by rewrite Hnil.
Qed.

(** C8, as the code does it: [save_model_metadata] writes, at the
    temporary path [tempfile] chose, a YAML mapping with exactly the keys
    [datatype] and [materializer] holding the record's data-type and
    materializer references, touches no other file, and returns that
    temporary path. *)
Theorem save_model_metadata_contents (tmp_name : string)
    (fs : gmap string file) (model_artifact : ArtifactResponseModel) :
  let '(fs', path) := save_model_metadata tmp_name fs model_artifact in
  path = tmp_name /\
  (exists metadata : gmap string string,
     fs' !! path = Some (YamlFile metadata) /\
     dom metadata = {[METADATA_DATATYPE; METADATA_MATERIALIZER]} /\
     metadata !! METADATA_DATATYPE = Some (art_data_type model_artifact) /\
     metadata !! METADATA_MATERIALIZER = Some (art_materializer model_artifact)) /\
  (forall other, other <> path -> fs' !! other = fs !! other).
Proof.
  cbn. split; [reflexivity|split].
  - eexists. split; [by rewrite lookup_insert_eq|].
    split; [|split; reflexivity].
    rewrite !dom_insert_L, dom_empty_L. set_solver.
  - intros other Hother. by rewrite !lookup_insert_ne.
Qed.

(** C1, as the code does it: once the file written by
    [save_model_metadata] is placed in a model directory under
    [MODEL_METADATA_YAML_FILE_NAME], [load_model_from_metadata] on that
    directory calls [_load_artifact] with the saved materializer and data
    type (and the directory as URI), then applies the eval-mode switch. *)
Theorem save_then_load_from_model_directory (tmp_name : string)
    (fs : gmap string file) (model_artifact : ArtifactResponseModel)
    (model_uri : string) :
  let '(fs1, path) := save_model_metadata tmp_name fs model_artifact in
  let fs2 := copy_file path
               (os_path_join model_uri MODEL_METADATA_YAML_FILE_NAME) fs1 in
  load_model fs2 model_uri =
    (model ← load_art fs2 (art_materializer model_artifact)
               (art_data_type model_artifact) model_uri;
     switch_to_eval_mode torch_importable is_nn_module nn_eval model).
Proof.
  cbn [save_model_metadata]. unfold copy_file.
  rewrite lookup_insert_eq.
  unfold load_model_from_metadata, read_yaml_file.
  rewrite lookup_insert_eq, bind_ret_l. unfold dict_getitem.
  assert (Hkeys : METADATA_MATERIALIZER <> METADATA_DATATYPE)
    by (unfold METADATA_MATERIALIZER, METADATA_DATATYPE; discriminate).
  rewrite (lookup_insert_ne _ _ _ _ Hkeys), !lookup_insert_eq, !bind_ret_l.
  reflexivity.
Qed.

End ArtifactProofs.

(** ** Further properties of the module *)

Section ExtraArtifactProofs.

Context {cls mobj obj : Type}.
Variable source_load : string -> exn + cls.
Variable materializer_init : cls -> string -> exn + mobj.
Variable materializer_load : mobj -> cls -> gmap string file -> exn + obj.
Variable client_get_stack_component : string -> exn + ComponentModel.
Variable from_model : ComponentModel -> exn + BaseArtifactStore.

Local Abbreviation load_art :=
  (_load_artifact source_load materializer_init materializer_load).
Local Abbreviation load_art_rec :=
  (load_artifact source_load materializer_init materializer_load
     client_get_stack_component from_model).

(** When both references resolve, [_load_artifact] looks each up once and
    then returns exactly what instantiating the materializer on [uri] and
    calling its [load] give, errors of the materializer included. *)
Theorem load_art_resolved (fs : gmap string file)
    (materializer data_type uri : string) (mc ac : cls) :
  source_load materializer = inr mc ->
  source_load data_type = inr ac ->
  load_art fs materializer data_type uri =
    ([SourceLoad materializer; SourceLoad data_type],
     match materializer_init mc uri with
     | inl e => inl e
     | inr m => materializer_load m ac fs
     end).
Proof.
  intros Hm Hd.
  unfold _load_artifact, source_utils_load, try_except, emit, lift.
  cbn. rewrite Hm, Hd. cbn.
  destruct (materializer_init mc uri); cbn; [reflexivity|].
  by destruct (materializer_load _ _ _).
Qed.

(** A data type whose lookup raises [ModuleNotFoundError] or
    [AttributeError] stops [_load_artifact] after both lookups: it logs
    the data-type error naming the reference and raises
    [ModuleNotFoundError] with the lookup's message; the materializer is
    never instantiated. *)
Theorem load_art_data_type_unresolvable (fs : gmap string file)
    (materializer data_type uri : string) (mc : cls) (e : exn) :
  source_load materializer = inr mc ->
  source_load data_type = inl e ->
  is_module_or_attribute_error e = true ->
  load_art fs materializer data_type uri =
    ([SourceLoad materializer; SourceLoad data_type;
      LogError (data_type_error_msg data_type)],
     inl (ModuleNotFoundError (exn_str e))).
Proof.
  intros Hm Hd He.
  unfold _load_artifact, source_utils_load, try_except, emit, lift.
  cbn. rewrite Hm, Hd. cbn. by rewrite He.
Qed.

(** Only [ModuleNotFoundError] and [AttributeError] of a lookup are
    translated: any other exception of the materializer lookup, or of the
    data-type lookup after the materializer resolved, leaves
    [_load_artifact] unchanged and without an error log. *)
Theorem load_art_other_lookup_errors_propagate (fs : gmap string file)
    (materializer data_type uri : string) (e : exn) :
  is_module_or_attribute_error e = false ->
  (source_load materializer = inl e ->
   load_art fs materializer data_type uri = ([SourceLoad materializer], inl e)) /\
  (forall mc, source_load materializer = inr mc ->
   source_load data_type = inl e ->
   load_art fs materializer data_type uri =
     ([SourceLoad materializer; SourceLoad data_type], inl e)).
Proof.
  intros He. split.
  - intros Hm. unfold _load_artifact, source_utils_load, try_except, emit, lift.
    cbn. rewrite Hm. cbn. by rewrite He.
  - intros mc Hm Hd.
    unfold _load_artifact, source_utils_load, try_except, emit, lift.
    cbn. rewrite Hm, Hd. cbn. by rewrite He.
Qed.

(** When the record's artifact store is found and instantiated,
    [load_artifact] logs nothing of its own and is exactly
    [_load_artifact] on the record's materializer, data type and URI. *)
Theorem load_artifact_store_restored (fs : gmap string file)
    (artifact : ArtifactResponseModel) (store_id : string)
    (cm : ComponentModel) (st : BaseArtifactStore)
    (Hid : art_artifact_store_id artifact = Some store_id)
    (Hget : client_get_stack_component store_id = inr cm)
    (Hfm : from_model cm = inr st) :
  load_art_rec fs artifact =
    load_art fs (art_materializer artifact) (art_data_type artifact)
      (art_uri artifact).
Proof.
  unfold load_artifact. rewrite Hid. unfold try_except, lift.
  rewrite Hget. cbn -[_load_artifact emit pass]. rewrite Hfm.
  cbn -[_load_artifact emit pass]. rewrite pass_then.
  by destruct (load_art _ _ _ _).
Qed.

End ExtraArtifactProofs.

Section ExtraVisualizationProofs.

Variable client_zen_store : BaseZenStore.
Variable from_model : ComponentModel -> exn + BaseArtifactStore.

Local Abbreviation load_vis :=
  (load_artifact_visualization client_zen_store from_model).
Local Abbreviation store_of :=
  (_load_artifact_store_of_artifact client_zen_store from_model).

(** Once a record has a store id, [_load_artifact_store_of_artifact] logs
    nothing: it asks the given zen store (the client's if none is given)
    for the component, lets any error of that lookup through unchanged,
    turns an [ImportError] (or [ModuleNotFoundError]) of [from_model] into
    the [NotImplementedError] naming the store, and lets any other error
    of [from_model] through unchanged. *)
Theorem store_of_artifact_resolution (artifact : ArtifactResponseModel)
    (zen_store : option BaseZenStore) (store_id : string)
    (Hid : art_artifact_store_id artifact = Some store_id) :
  store_of artifact zen_store =
    match zs_get_stack_component
            (match zen_store with Some zs => zs | None => client_zen_store end)
            store_id with
    | inl e => ([], inl e)
    | inr cm =>
        match from_model cm with
        | inr st => ([], inr st)
        | inl e =>
            ([], inl (if is_import_error e
                      then NotImplementedError (store_unavailable_msg artifact cm)
                      else e))
        end
    end.
Proof.
  unfold _load_artifact_store_of_artifact. rewrite Hid.
  unfold try_except, lift.
  destruct (zs_get_stack_component _ store_id) as [e|cm]; [reflexivity|].
  cbn. destruct (from_model cm) as [e|st]; [|reflexivity].
  cbn. by destruct (is_import_error e).
Qed.


(** [load_artifact_visualization] opens at most one file, and only after
    its checks passed: its log is empty, or it starts with the opening of
    the URI of the visualization at [index] (a non-negative index into the
    list) of a record with a store id, in binary mode for images and text
    mode otherwise, followed by nothing but logged exceptions. *)
Theorem load_vis_opens_selected_file_only (artifact : ArtifactResponseModel)
    (index : Z) (zen_store : option BaseZenStore) (encode_image : bool) :
  (load_vis artifact index zen_store encode_image).1 = [] \/
  exists visualization rest,
    art_visualizations artifact !! Z.to_nat index = Some visualization /\
    (0 <= index)%Z /\
    art_artifact_store_id artifact <> None /\
    (load_vis artifact index zen_store encode_image).1 =
      StoreOpen (vis_uri visualization)
        (if is_image (vis_type visualization) then "rb" else "r") :: rest /\
    Forall (fun ev => exists m, ev = LogException m) rest.
Proof.
  unfold load_artifact_visualization.
  destruct (art_visualizations artifact) as [|v0 vs] eqn:Hvis;
    [left; reflexivity|].
  destruct ((index <? 0)%Z || _)%bool eqn:Hb; [left; reflexivity|].
  apply orb_false_iff in Hb. destruct Hb as [Hpos _].
  apply Z.ltb_ge in Hpos.
  destruct ((v0 :: vs) !! Z.to_nat index) as [v|] eqn:Hl;
    [|left; reflexivity].
  unfold load_visualization_entry, _load_artifact_store_of_artifact.
  destruct (art_artifact_store_id artifact) as [sid|] eqn:Hs;
    [|left; reflexivity].
  unfold try_except, lift.
  destruct (zs_get_stack_component _ sid) as [e|cm]; [left; reflexivity|].
  cbn. destruct (from_model cm) as [e|st].
  { cbn. left. by destruct (is_import_error e). }
  unfold _load_file_from_artifact_store, try_except, emit, lift. cbn.
  destruct (store_open st (vis_uri v)
              (if is_image (vis_type v) then "rb" else "r")) as [e|val].
  - right. exists v.
    destruct e; cbn; eexists; (split; [done|]); (split; [lia|]);
      (split; [congruence|]); (split; [reflexivity|]);
      repeat (constructor; [eexists; reflexivity|]); constructor.
  - right. exists v, [].
    split; [done|]. split; [lia|]. split; [congruence|].
    split; [|constructor].
    destruct (is_image (vis_type v) && encode_image); cbn; [|reflexivity].
    by destruct val.
Qed.

(** A visualization that loads carries the type of the visualization at
    [index], and its value is what the record's artifact store returned on
    opening that visualization's URI: the base64 encoding of the bytes read
    in mode ["rb"] for an image loaded with [encode_image], the value read
    as it is otherwise. *)
Theorem load_vis_success_type (artifact : ArtifactResponseModel)
    (index : Z) (zen_store : option BaseZenStore) (encode_image : bool)
    (loaded : LoadedVisualizationModel)
    (Hok : (load_vis artifact index zen_store encode_image).2 = inr loaded) :
  exists visualization artifact_store,
    art_visualizations artifact !! Z.to_nat index = Some visualization /\
    (store_of artifact zen_store).2 = inr artifact_store /\
    lv_type loaded = vis_type visualization /\
    (if is_image (vis_type visualization) && encode_image
     then exists b,
            store_open artifact_store (vis_uri visualization) "rb"
              = inr (PBytes b) /\
            lv_value loaded = PBytes (b64encode b)
     else store_open artifact_store (vis_uri visualization)
            (if is_image (vis_type visualization) then "rb" else "r")
            = inr (lv_value loaded)).
Proof.
  revert Hok. unfold load_artifact_visualization.
  destruct (art_visualizations artifact) as [|v0 vs]; [discriminate|].
  destruct ((index <? 0)%Z || _)%bool; [discriminate|].
  destruct ((v0 :: vs) !! Z.to_nat index) as [v|] eqn:Hv; [|discriminate].
  unfold load_visualization_entry.
  destruct (store_of artifact zen_store) as [l [e|st]] eqn:Hst;
    [discriminate|].
  rewrite bind_prefix. cbn [snd].
  unfold _load_file_from_artifact_store, try_except, emit, lift.
  cbn [mbind py_bind fst snd].
  destruct (store_open st (vis_uri v)
              (if is_image (vis_type v) then "rb" else "r")) as [e|val] eqn:Ho.
  { destruct e; cbn; intros Hx; inversion Hx. }
  cbn. destruct (is_image (vis_type v) && encode_image) eqn:Henc.
  - pose proof Henc as Himg. apply andb_prop in Himg.
    destruct Himg as [Himg _]. rewrite Himg in Ho.
    destruct val as [b|str]; cbn; [|intros Hx; inversion Hx].
    intros Hok. inversion Hok. subst. exists v, st.
    split; [done|]. split; [done|]. split; [done|].
    rewrite Henc. by exists b.
  - cbn. intros Hok. inversion Hok. subst. exists v, st.
    split; [done|]. split; [done|]. split; [done|].
    rewrite Henc. exact Ho.
Qed.

End ExtraVisualizationProofs.

Section ExtraMetadataProofs.

Context {cls mobj obj : Type}.
Variable source_load : string -> exn + cls.
Variable materializer_init : cls -> string -> exn + mobj.
Variable materializer_load : mobj -> cls -> gmap string file -> exn + obj.
Variable torch_importable : bool.
Variable is_nn_module : obj -> bool.
Variable nn_eval : obj -> obj.

Local Abbreviation load_art :=
  (_load_artifact source_load materializer_init materializer_load).
Local Abbreviation load_model :=
  (load_model_from_metadata source_load materializer_init materializer_load
     torch_importable is_nn_module nn_eval).

(** [load_model_from_metadata] fails before any source lookup when no
    file is at [model_uri/model_metadata.yaml] (with the error [open] gives
    there: [NotADirectoryError] when a directory part of the path is a
    regular file, [IsADirectoryError] when the path is a directory,
    [FileNotFoundError] otherwise), or when the mapping lacks the data type
    or, having it, the materializer ([KeyError] of the key). *)
Theorem load_model_metadata_errors (fs : gmap string file)
    (model_uri : string) :
  let path := os_path_join model_uri MODEL_METADATA_YAML_FILE_NAME in
  (fs !! path = None ->
   load_model fs model_uri = ([], inl (open_error fs path))) /\
  (forall d, fs !! path = Some (YamlFile d) ->
   d !! METADATA_DATATYPE = None ->
   load_model fs model_uri = ([], inl (KeyError METADATA_DATATYPE))) /\
  (forall d data_type, fs !! path = Some (YamlFile d) ->
   d !! METADATA_DATATYPE = Some data_type ->
   d !! METADATA_MATERIALIZER = None ->
   load_model fs model_uri = ([], inl (KeyError METADATA_MATERIALIZER))).
Proof.
  intros path. unfold load_model_from_metadata, read_yaml_file, dict_getitem.
  fold path. split; [|split].
  - intros Hf. by rewrite Hf.
  - intros d Hf Hd. by rewrite Hf, bind_ret_l, Hd.
  - intros d dt Hf Hd Hm. by rewrite Hf, bind_ret_l, Hd, bind_ret_l, Hm.
Qed.

Lemma dir_prefixes_slash (s t : string) :
  In s (dir_prefixes (s ++ String "/" t)).
Proof.
  induction s as [|c s IH]; cbn; [by left|].
  apply in_or_app. right. by apply in_map.
Qed.

(** Given the path of a regular file (as [save_model_metadata] returns),
    [load_model_from_metadata] looks for [<path>/model_metadata.yaml] and
    fails with [NotADirectoryError] naming it, before any source lookup. *)
Theorem load_model_from_file_path (fs : gmap string file)
    (model_uri : string) (f : file)
    (Hfile : fs !! model_uri = Some f)
    (Hne : model_uri <> "")
    (Hslash : ends_with_slash model_uri = false)
    (Hnone : fs !! os_path_join model_uri MODEL_METADATA_YAML_FILE_NAME = None) :
  load_model fs model_uri =
    ([], inl (NotADirectoryError
       ("[Errno 20] Not a directory: '"
        ++ os_path_join model_uri MODEL_METADATA_YAML_FILE_NAME ++ "'"))).
Proof.
  assert (Hjoin : os_path_join model_uri MODEL_METADATA_YAML_FILE_NAME =
                  model_uri ++ String "/" MODEL_METADATA_YAML_FILE_NAME).
  { unfold os_path_join. cbn [String.get MODEL_METADATA_YAML_FILE_NAME].
    destruct (String.eqb_spec model_uri ""); [contradiction|].
    by rewrite Hslash. }
  unfold load_model_from_metadata, read_yaml_file. rewrite Hnone.
  unfold open_error.
  replace (existsb _ _) with true; [reflexivity|].
  symmetry. apply existsb_exists. exists model_uri.
  rewrite Hjoin. split; [apply dir_prefixes_slash|]. by rewrite Hfile.
Qed.

(** Whatever else the metadata mapping holds, [load_model_from_metadata]
    loads the model with the materializer and data type it names, from
    [model_uri] itself, and then applies the eval-mode switch. *)
Theorem load_model_uses_metadata_entries (fs : gmap string file)
    (model_uri : string) (d : gmap string string)
    (data_type materializer : string)
    (Hf : fs !! os_path_join model_uri MODEL_METADATA_YAML_FILE_NAME
          = Some (YamlFile d))
    (Hd : d !! METADATA_DATATYPE = Some data_type)
    (Hm : d !! METADATA_MATERIALIZER = Some materializer) :
  load_model fs model_uri =
    (model ← load_art fs materializer data_type model_uri;
     switch_to_eval_mode torch_importable is_nn_module nn_eval model).
Proof.
  unfold load_model_from_metadata, read_yaml_file, dict_getitem.
  by rewrite Hf, bind_ret_l, Hd, bind_ret_l, Hm, bind_ret_l.
Qed.

End ExtraMetadataProofs.

(** ** Base64 encoding of images *)

Lemma mod3_step (k : nat) : (S (S (S k))) mod 3 = k mod 3.
Proof.
  replace (S (S (S k))) with (k + 1 * 3) by lia. apply Nat.Div0.mod_add.
Qed.

Lemma b64_char_in_alphabet (n : N) :
  (n < 64)%N -> In (b64_char n) (bytes_of_string b64_alphabet).
Proof.
  intros Hn.
  assert (Hall : forallb (fun k => existsb (Byte.eqb (b64_char (N.of_nat k)))
                   (bytes_of_string b64_alphabet)) (seq 0 64) = true)
    by (vm_compute; reflexivity).
  rewrite forallb_forall in Hall.
  specialize (Hall (N.to_nat n)). rewrite N2Nat.id in Hall.
  destruct (existsb_exists (Byte.eqb (b64_char n)) (bytes_of_string b64_alphabet))
    as [Hex _].
  destruct Hex as [c [Hc Heq]].
  - apply Hall. apply in_seq. lia.
  - apply Byte.byte_dec_bl in Heq. by subst.
Qed.

Lemma b64_shiftr18_lt (n : N) : (n < 16777216)%N -> (N.shiftr n 18 < 64)%N.
Proof.
  intros Hn. rewrite N.shiftr_div_pow2. apply N.Div0.div_lt_upper_bound.
  cbn. lia.
Qed.

Lemma b64_land63_lt (n : N) : (N.land n 63 < 64)%N.
Proof.
  change 63%N with (N.ones 6). rewrite N.land_ones. apply N.mod_lt. discriminate.
Qed.

Theorem b64encode_length (bs : list byte) :
  List.length (b64encode bs) = 4 * ((List.length bs + 2) / 3).
Proof.
  revert bs. fix IH 1.
  intros [|a [|b [|c rest]]]; [reflexivity|reflexivity|reflexivity|].
  cbn [b64encode List.length]. rewrite IH.
  replace (S (S (S (List.length rest))) + 2) with
    ((List.length rest + 2) + 1 * 3) by lia.
  rewrite Nat.div_add by discriminate. lia.
Qed.

Theorem b64encode_app (xs ys : list byte) :
  List.length xs mod 3 = 0 -> (b64encode (xs ++ ys) = b64encode xs ++ b64encode ys)%list.
Proof.
  revert xs. fix IH 1.
  intros [|a [|b [|c rest]]] Hlen; [reflexivity|discriminate|discriminate|].
  cbn [List.length] in Hlen. rewrite mod3_step in Hlen.
  cbn [app b64encode]. rewrite (IH rest Hlen). reflexivity.
Qed.

Ltac b64_sextet :=
  apply b64_char_in_alphabet;
  first [ apply b64_land63_lt
        | apply b64_shiftr18_lt;
          repeat match goal with
                 | b : byte |- _ =>
                     lazymatch goal with
                     | _ : (Byte.to_N b <= 255)%N |- _ => fail
                     | _ => pose proof (Byte.to_N_bounded b)
                     end
                 end; lia ].

Theorem b64encode_shape (bs : list byte) :
  exists body,
    b64encode bs = (body ++ repeat b64_pad ((3 - List.length bs mod 3) mod 3))%list /\
    Forall (fun c => In c (bytes_of_string b64_alphabet)) body.
Proof.
  revert bs. fix IH 1.
  intros [|a [|b [|c rest]]].
  - exists []. split; [reflexivity|constructor].
  - exists (take 2 (b64encode [a])). split; [reflexivity|].
    repeat (constructor; [b64_sextet|]); constructor.
  - exists (take 3 (b64encode [a; b])). split; [reflexivity|].
    repeat (constructor; [b64_sextet|]); constructor.
  - destruct (IH rest) as [body [Hb Hf]].
    cbn [b64encode List.length]. rewrite mod3_step, Hb.
    exists (take 4 (b64encode [a; b; c]) ++ body)%list. split; [reflexivity|].
    do 4 (constructor; [b64_sextet|]); exact Hf.
Qed.

(** * Runs on the concrete environment *)

(** The visualization at index N-1 loads; index N names the count. *)
Example demo_last_visualization_loads :
  Demo.load_artifact_visualization' Demo.model_artifact 1 None true =
    ([StoreOpen "/store/viz/table.csv" "r"],
     inr {| lv_type := CSV; lv_value := PStr "a,b" |}).
Proof. reflexivity. Qed.

Example demo_index_out_of_range :
  Demo.load_artifact_visualization' Demo.model_artifact 2 None true =
    ([], inl (DoesNotExistException
      "Artifact '7f00' only has 2 visualizations, but index 2 was requested.")).
Proof. reflexivity. Qed.

(** An image read as bytes is returned base64-encoded. *)
Example demo_image_encoded :
  Demo.load_artifact_visualization' Demo.model_artifact 0 None true =
    ([StoreOpen "/store/viz/plot.png" "rb"],
     inr {| lv_type := IMAGE;
            lv_value := PBytes (bytes_of_string "iVBORw==") |}).
Proof. reflexivity. Qed.

(** ** Witnesses *)

Lemma load_artifact_store_failure_witness :
  art_artifact_store_id Demo.unknown_store_artifact = Some "e5f6" /\
  Demo.client_get_stack_component "e5f6" =
    inl (KeyError "No component with ID 'e5f6' found.") /\
  Demo.load_artifact' ∅ Demo.unknown_store_artifact =
    (LogWarning (restore_store_warning Demo.unknown_store_artifact)
       :: (_load_artifact Demo.source_load Demo.materializer_init
             Demo.materializer_load ∅
             (art_materializer Demo.unknown_store_artifact)
             (art_data_type Demo.unknown_store_artifact)
             (art_uri Demo.unknown_store_artifact)).1,
     (_load_artifact Demo.source_load Demo.materializer_init
        Demo.materializer_load ∅
        (art_materializer Demo.unknown_store_artifact)
        (art_data_type Demo.unknown_store_artifact)
        (art_uri Demo.unknown_store_artifact)).2).
Proof.
  split; [reflexivity|]. split; [reflexivity|].
  exact (load_artifact_store_failure Demo.source_load Demo.materializer_init
           Demo.materializer_load Demo.client_get_stack_component
           Demo.from_model ∅ Demo.unknown_store_artifact "e5f6"
           (KeyError "No component with ID 'e5f6' found.")
           eq_refl (or_introl eq_refl)).
Defined.

Lemma load_artifact_materializer_unresolvable_witness :
  Demo.source_load Demo.missing_materializer =
    inl (ModuleNotFoundError "No module named 'my_pkg'") /\
  _load_artifact Demo.source_load Demo.materializer_init
    Demo.materializer_load ∅ Demo.missing_materializer "builtins.dict"
    "/store/trainer/output/5" =
    ([SourceLoad Demo.missing_materializer;
      LogError (materializer_error_msg Demo.missing_materializer)],
     inl (ModuleNotFoundError "No module named 'my_pkg'")).
Proof.
  split; [reflexivity|].
  exact (proj1 (load_artifact_materializer_unresolvable Demo.source_load
           Demo.materializer_init Demo.materializer_load
           Demo.client_get_stack_component Demo.from_model ∅
           Demo.local_unresolvable_artifact
           (ModuleNotFoundError "No module named 'my_pkg'")
           eq_refl eq_refl)).
Defined.

Lemma load_artifact_visualization_store_deleted_witness :
  art_artifact_store_id Demo.orphan_artifact = None /\
  (0 <= 1 < Z.of_nat (List.length (art_visualizations Demo.orphan_artifact)))%Z /\
  Demo.load_artifact_visualization' Demo.orphan_artifact 1 None true =
    ([], inl (DoesNotExistException (store_deleted_msg Demo.orphan_artifact))).
Proof.
  split; [reflexivity|]. split; [cbn; lia|].
  apply (load_artifact_visualization_store_deleted Demo.zen_store
           Demo.from_model Demo.orphan_artifact 1 None true);
    [reflexivity | cbn; lia].
Defined.

Lemma load_visualization_entry_mode_and_encoding_witness :
  _load_artifact_store_of_artifact Demo.zen_store Demo.from_model
    Demo.model_artifact None = ([], inr Demo.local_store) /\
  load_visualization_entry Demo.zen_store Demo.from_model
    Demo.model_artifact Demo.plot None true =
    ([StoreOpen "/store/viz/plot.png" "rb"],
     inr {| lv_type := IMAGE; lv_value := PBytes (b64encode Demo.png_bytes) |}).
Proof.
  split; [reflexivity|].
  pose proof (load_visualization_entry_mode_and_encoding Demo.zen_store
                Demo.from_model Demo.model_artifact Demo.plot None []
                Demo.local_store eq_refl) as H.
  cbv zeta in H. destruct H as (_ & _ & _ & _ & Himage).
  exact (Himage eq_refl Demo.png_bytes eq_refl).
Defined.

Lemma store_id_null_asymmetry_witness :
  art_artifact_store_id Demo.orphan_artifact = None /\
  Demo.load_artifact' ∅ Demo.orphan_artifact =
    (LogWarning (restore_store_warning Demo.orphan_artifact)
       :: (_load_artifact Demo.source_load Demo.materializer_init
             Demo.materializer_load ∅
             (art_materializer Demo.orphan_artifact)
             (art_data_type Demo.orphan_artifact)
             (art_uri Demo.orphan_artifact)).1,
     (_load_artifact Demo.source_load Demo.materializer_init
        Demo.materializer_load ∅
        (art_materializer Demo.orphan_artifact)
        (art_data_type Demo.orphan_artifact)
        (art_uri Demo.orphan_artifact)).2).
Proof.
  split; [reflexivity|].
  exact (proj1 (store_id_null_asymmetry Demo.source_load
           Demo.materializer_init Demo.materializer_load
           Demo.client_get_stack_component Demo.zen_store Demo.from_model ∅
           Demo.orphan_artifact eq_refl)).
Defined.

(** ** Counterexamples *)

(** C1: loading from the path [save_model_metadata] returns looks for
    [<path>/model_metadata.yaml]; that path is a regular file, so the open
    fails with [NotADirectoryError]. *)
Lemma save_then_load_returned_path_fails :
  let '(fs, path) :=
    save_model_metadata Demo.tmp_name ∅ Demo.model_artifact in
  Demo.load_model_from_metadata' fs path =
    ([], inl (NotADirectoryError
      "[Errno 20] Not a directory: '/tmp/tmpk3x9q2.yaml/model_metadata.yaml'")).
Proof. reflexivity. Qed.

(** C2: a store whose dependencies are missing makes [load_artifact]
    raise the [ImportError], with no warning and no source lookup. *)
Lemma load_artifact_missing_store_dependencies_raises :
  Demo.load_artifact' ∅ Demo.s3_artifact =
    ([], inl (ImportError "Couldn't import flavor s3: No module named 's3fs'")).
Proof. reflexivity. Qed.

(** C3: the materializer cannot be imported, yet [load_artifact] fails
    with the store's [ImportError], before any reference is looked up. *)
Lemma load_artifact_unresolvable_materializer_store_error_first :
  Demo.source_load (art_materializer Demo.s3_unresolvable_artifact) =
    inl (ModuleNotFoundError "No module named 'my_pkg'") /\
  Demo.load_artifact' ∅ Demo.s3_unresolvable_artifact =
    ([], inl (ImportError "Couldn't import flavor s3: No module named 's3fs'")).
Proof. split; reflexivity. Qed.

(** C8: the metadata file is the temporary file, not
    [<artifact uri>/model_metadata.yaml], and nothing is written there. *)
Lemma save_model_metadata_not_in_model_directory :
  let '(fs, path) :=
    save_model_metadata Demo.tmp_name ∅ Demo.model_artifact in
  path <> os_path_join (art_uri Demo.model_artifact)
            MODEL_METADATA_YAML_FILE_NAME /\
  fs !! os_path_join (art_uri Demo.model_artifact)
          MODEL_METADATA_YAML_FILE_NAME = None.
Proof. cbn. split; [discriminate | reflexivity]. Qed.

(** C10: a record with a null store id and no visualizations fails with
    "no visualizations", not with "store was deleted". *)
Lemma load_visualization_null_store_without_visualizations :
  Demo.load_artifact_visualization'
    Demo.orphan_artifact_no_visualizations 0 None false =
    ([], inl (DoesNotExistException
      (no_visualizations_msg Demo.orphan_artifact_no_visualizations))) /\
  no_visualizations_msg Demo.orphan_artifact_no_visualizations <>
    store_deleted_msg Demo.orphan_artifact_no_visualizations.
Proof. split; [reflexivity | discriminate]. Qed.

Lemma load_art_resolved_witness :
  Demo.source_load "builtins.dict" = inr "builtins.dict" /\
  _load_artifact Demo.source_load Demo.materializer_init
    Demo.materializer_load ∅ (art_materializer Demo.s3_artifact)
    "builtins.dict" "/store/loader/output/3" =
    ([SourceLoad (art_materializer Demo.s3_artifact);
      SourceLoad "builtins.dict"],
     match Demo.materializer_init (art_materializer Demo.s3_artifact)
             "/store/loader/output/3" with
     | inl e => inl e
     | inr m => Demo.materializer_load m "builtins.dict" ∅
     end).
Proof.
  split; [reflexivity|].
  exact (load_art_resolved Demo.source_load Demo.materializer_init
           Demo.materializer_load ∅ (art_materializer Demo.s3_artifact)
           "builtins.dict" "/store/loader/output/3"
           (art_materializer Demo.s3_artifact) "builtins.dict"
           eq_refl eq_refl).
Defined.

Lemma load_art_data_type_unresolvable_witness :
  Demo.source_load "my_pkg.data.Frame" =
    inl (ModuleNotFoundError "No module named 'my_pkg'") /\
  _load_artifact Demo.source_load Demo.materializer_init
    Demo.materializer_load ∅ (art_materializer Demo.s3_artifact)
    "my_pkg.data.Frame" "/store/loader/output/3" =
    ([SourceLoad (art_materializer Demo.s3_artifact);
      SourceLoad "my_pkg.data.Frame";
      LogError (data_type_error_msg "my_pkg.data.Frame")],
     inl (ModuleNotFoundError "No module named 'my_pkg'")).
Proof.
  split; [reflexivity|].
  exact (load_art_data_type_unresolvable Demo.source_load
           Demo.materializer_init Demo.materializer_load ∅
           (art_materializer Demo.s3_artifact) "my_pkg.data.Frame"
           "/store/loader/output/3" (art_materializer Demo.s3_artifact)
           (ModuleNotFoundError "No module named 'my_pkg'")
           eq_refl eq_refl eq_refl).
Defined.

Lemma load_art_other_lookup_errors_propagate_witness :
  is_module_or_attribute_error (OtherException "invalid syntax") = false /\
  (Demo.source_load "my_pkg.Broken" = inl (OtherException "invalid syntax") ->
   _load_artifact Demo.source_load Demo.materializer_init
     Demo.materializer_load ∅ "my_pkg.Broken" "builtins.dict"
     "/store/loader/output/3" =
     ([SourceLoad "my_pkg.Broken"], inl (OtherException "invalid syntax"))).
Proof.
  split; [reflexivity|].
  exact (proj1 (load_art_other_lookup_errors_propagate Demo.source_load
           Demo.materializer_init Demo.materializer_load ∅ "my_pkg.Broken"
           "builtins.dict" "/store/loader/output/3"
           (OtherException "invalid syntax") eq_refl)).
Defined.

Lemma load_artifact_store_restored_witness :
  art_artifact_store_id Demo.model_artifact = Some "a1b2" /\
  Demo.client_get_stack_component "a1b2" = inr Demo.local_cm /\
  Demo.load_artifact' ∅ Demo.model_artifact =
    _load_artifact Demo.source_load Demo.materializer_init
      Demo.materializer_load ∅ (art_materializer Demo.model_artifact)
      (art_data_type Demo.model_artifact) (art_uri Demo.model_artifact).
Proof.
  split; [reflexivity|]. split; [reflexivity|].
  exact (load_artifact_store_restored Demo.source_load Demo.materializer_init
           Demo.materializer_load Demo.client_get_stack_component
           Demo.from_model ∅ Demo.model_artifact "a1b2" Demo.local_cm
           Demo.local_store eq_refl eq_refl eq_refl).
Defined.

Lemma store_of_artifact_resolution_witness :
  art_artifact_store_id Demo.s3_artifact = Some "c3d4" /\
  _load_artifact_store_of_artifact Demo.zen_store Demo.from_model
    Demo.s3_artifact None =
    ([], inl (NotImplementedError
                (store_unavailable_msg Demo.s3_artifact Demo.s3_cm))).
Proof.
  split; [reflexivity|].
  rewrite (store_of_artifact_resolution Demo.zen_store Demo.from_model
             Demo.s3_artifact None "c3d4" eq_refl).
  reflexivity.
Defined.

Lemma load_vis_success_type_witness :
  (Demo.load_artifact_visualization' Demo.model_artifact 0 None true).2 =
    inr {| lv_type := IMAGE; lv_value := PBytes (b64encode Demo.png_bytes) |} /\
  exists visualization artifact_store,
    art_visualizations Demo.model_artifact !! Z.to_nat 0 = Some visualization /\
    (_load_artifact_store_of_artifact Demo.zen_store Demo.from_model
       Demo.model_artifact None).2 = inr artifact_store /\
    IMAGE = vis_type visualization /\
    (if is_image (vis_type visualization) && true
     then exists b,
            store_open artifact_store (vis_uri visualization) "rb"
              = inr (PBytes b) /\
            PBytes (b64encode Demo.png_bytes) = PBytes (b64encode b)
     else store_open artifact_store (vis_uri visualization)
            (if is_image (vis_type visualization) then "rb" else "r")
            = inr (PBytes (b64encode Demo.png_bytes))).
Proof.
  split; [reflexivity|].
  exact (load_vis_success_type Demo.zen_store Demo.from_model
           Demo.model_artifact 0 None true
           {| lv_type := IMAGE; lv_value := PBytes (b64encode Demo.png_bytes) |}
           eq_refl).
Defined.

Lemma load_model_uses_metadata_entries_witness :
  Demo.model_dir_fs !! os_path_join "/store/trainer/output/12"
    MODEL_METADATA_YAML_FILE_NAME = Some (YamlFile Demo.model_metadata) /\
  Demo.load_model_from_metadata' Demo.model_dir_fs "/store/trainer/output/12" =
    (model ← _load_artifact Demo.source_load Demo.materializer_init
               Demo.materializer_load Demo.model_dir_fs
               "zenml.integrations.pytorch.materializers.pytorch_module_materializer.PyTorchModuleMaterializer"
               "torch.nn.modules.module.Module" "/store/trainer/output/12";
     switch_to_eval_mode true Demo.is_nn_module Demo.nn_eval model).
Proof.
  split; [reflexivity|].
  exact (load_model_uses_metadata_entries Demo.source_load
           Demo.materializer_init Demo.materializer_load true
           Demo.is_nn_module Demo.nn_eval Demo.model_dir_fs
           "/store/trainer/output/12" Demo.model_metadata
           "torch.nn.modules.module.Module"
           "zenml.integrations.pytorch.materializers.pytorch_module_materializer.PyTorchModuleMaterializer"
           eq_refl eq_refl eq_refl).
Defined.

Lemma b64encode_app_witness :
  List.length [x89; x50; x4e] mod 3 = 0 /\
  b64encode ([x89; x50; x4e] ++ [x47])%list =
    (b64encode [x89; x50; x4e] ++ b64encode [x47])%list.
Proof.
  split; [reflexivity|].
  apply b64encode_app. reflexivity.
Defined.

Lemma load_model_from_file_path_witness :
  let '(fs, path) :=
    save_model_metadata Demo.tmp_name ∅ Demo.model_artifact in
  fs !! path = Some (YamlFile
    (<[METADATA_MATERIALIZER := art_materializer Demo.model_artifact]>
       (<[METADATA_DATATYPE := art_data_type Demo.model_artifact]> ∅))) /\
  Demo.load_model_from_metadata' fs path =
    ([], inl (NotADirectoryError
       ("[Errno 20] Not a directory: '"
        ++ os_path_join path MODEL_METADATA_YAML_FILE_NAME ++ "'"))).
Proof.
  cbn [save_model_metadata]. split; [reflexivity|].
  eapply (load_model_from_file_path Demo.source_load Demo.materializer_init
            Demo.materializer_load true Demo.is_nn_module Demo.nn_eval
            (save_model_metadata Demo.tmp_name ∅ Demo.model_artifact).1
            Demo.tmp_name);
    [reflexivity | discriminate | reflexivity | reflexivity].
Defined.
